(** * Registration form: frontend/src/auth/Register.js

    A shallow embedding of the [Register] component and of its submission
    handler [handleSubmit], together with the part of the JavaScript
    platform the handler touches: JSON values, property reads,
    [JSON.stringify] on the request object, promises settled by the network,
    and the event loop that resumes a suspended handler. *)

From Stdlib Require Import ZArith String List Ascii Lia Bool.
From Stdlib Require Import Floats.PrimFloat.
From stdpp Require Import base option gmap strings list.

Set Warnings "-register-all".
Local Open Scope string_scope.
Local Open Scope Z_scope.

(** ** JavaScript values *)

(** A string stands for the UTF-8 encoding of a well-formed JavaScript
    string, which is also what [fetch] puts on the wire for a string body. *)

(** What [JSON.parse] can produce.  A number is an IEEE double; an object is
    used as a map from property names to values. *)
Inductive json : Type :=
| JNull
| JBool (b : bool)
| JNum (x : float)
| JStr (s : string)
| JArr (l : list json)
| JObj (m : gmap string json).

(** The values the handler manipulates: parsed JSON, or [undefined] (the
    result of reading a property that is not there). *)
Inductive value : Type :=
| Undefined
| Val (j : json).

(** Thrown values and rejection reasons. *)
Inductive exn : Type :=
| TypeError (msg : string)
| SyntaxError (msg : string)
| DOMException (name msg : string).

(** The two ways a promise settles; also the result of an expression that
    may throw. *)
Inductive settled (A : Type) : Type :=
| Fulfilled (a : A)
| Rejected (e : exn).
Arguments Fulfilled {A} a.
Arguments Rejected {A} e.

(** [ToBoolean] of ECMA-262. *)
Definition ToBoolean (v : value) : bool :=
  match v with
  | Undefined => false
  | Val JNull => false
  | Val (JBool b) => b
  | Val (JNum x) => negb (PrimFloat.is_zero x || PrimFloat.is_nan x)
  | Val (JStr s) => negb (String.eqb s "")
  | Val (JArr _) => true
  | Val (JObj _) => true
  end.

(** The own property [k] of a parsed value, for a name [k] that is neither
    an index nor [length]. *)
Definition own_property (data : json) (k : string) : option json :=
  match data with
  | JObj m => m !! k
  | _ => None
  end.

(** The member expression [data.k]: a [TypeError] on [null], the property's
    value when there is one, [undefined] otherwise.  None of the names the
    handler reads ([error], [user], [access_token]) is defined on a built-in
    prototype, so the prototype chain contributes nothing. *)
Definition get (data : json) (k : string) : settled value :=
  match data with
  | JNull =>
      Rejected (TypeError ("Cannot read properties of null (reading '" +:+ k +:+ "')"))
  | _ => Fulfilled (from_option Val Undefined (own_property data k))
  end.

(** ** [JSON.stringify] on an object of strings *)

Definition dquote : ascii := "034"%char.
Definition backslash : ascii := "\"%char.

Definition hex_digit (n : N) : ascii :=
  ascii_of_N (if (n <? 10)%N then 48 + n else 87 + n)%N.

(** [UnicodeEscape]: backslash, [u] and four lower-case hexadecimal digits. *)
Definition UnicodeEscape (c : ascii) : string :=
  let n := N_of_ascii c in
  String backslash (String "u" (String "0" (String "0"
    (String (hex_digit (n / 16)) (String (hex_digit (n mod 16)) ""))))).

(** One character of [QuoteJSONString]: the two-character escapes of its
    table, a Unicode escape for the other control characters, and the
    character itself otherwise. *)
Definition quote_char (c : ascii) : string :=
  if Ascii.eqb c "008" then String backslash "b"
  else if Ascii.eqb c "009" then String backslash "t"
  else if Ascii.eqb c "010" then String backslash "n"
  else if Ascii.eqb c "012" then String backslash "f"
  else if Ascii.eqb c "013" then String backslash "r"
  else if Ascii.eqb c dquote then String backslash (String dquote "")
  else if Ascii.eqb c backslash then String backslash (String backslash "")
  else if (N_of_ascii c <? 32)%N then UnicodeEscape c
  else String c "".

Fixpoint quote_chars (s : string) : string :=
  match s with
  | EmptyString => ""
  | String c s' => quote_char c +:+ quote_chars s'
  end.

Definition QuoteJSONString (s : string) : string :=
  String dquote (quote_chars s +:+ String dquote "").

(** [SerializeJSONObject] with no gap: the members in property order,
    separated by commas, between braces. *)
Definition member (kv : string * string) : string :=
  QuoteJSONString kv.1 +:+ ":" +:+ QuoteJSONString kv.2.

Definition JSON_stringify (props : list (string * string)) : string :=
  "{" +:+ String.concat "," (map member props) +:+ "}".

(** ** Requests and responses *)

Record RequestInit : Type := {
  method : string;
  headers : list (string * string);
  body : string;
}.

(** A response as the handler sees it: its status, and what [res.json()]
    settles to, the parsed body or the reason it could not be read (a
    [SyntaxError] for a body that is not JSON). *)
Record Response : Type := {
  status : Z;
  json_body : settled json;
}.

(** [res.ok]: the status is in the range 200 to 299. *)
Definition ok (res : Response) : bool :=
  (200 <=? status res) && (status res <=? 299).

(** ** Asynchronous computations *)

(** The four [useState] cells of the component. *)
Record State : Type := {
  username : string;
  email : string;
  password : string;
  error : value;
}.

(** Synchronous calls on the collaborators of the component. *)
Inductive call : Type :=
| preventDefault
| setUsername (v : string)
| setEmail (v : string)
| setPassword (v : string)
| setError (v : value)
| login (user access_token : value)
| navigate (to : string).

(** The body of an [async] function: it returns, throws, calls a
    collaborator, or awaits one of the two promises of this file.  An
    awaited promise hands the continuation its settlement. *)
Inductive async (A : Type) : Type :=
| Return (a : A)
| Throw (e : exn)
| Call (c : call) (k : async A)
| AwaitFetch (url : string) (init : RequestInit) (k : settled Response → async A)
| AwaitJson (res : Response) (k : settled json → async A).
Arguments Return {A} a.
Arguments Throw {A} e.
Arguments Call {A} c k.
Arguments AwaitFetch {A} url init k.
Arguments AwaitJson {A} res k.

Fixpoint async_bind {A B : Type} (f : A → async B) (m : async A) : async B :=
  match m with
  | Return a => f a
  | Throw e => Throw e
  | Call c k => Call c (async_bind f k)
  | AwaitFetch url init k => AwaitFetch url init (λ o, async_bind f (k o))
  | AwaitJson res k => AwaitJson res (λ o, async_bind f (k o))
  end.

#[global] Instance async_ret : MRet async := λ A a, Return a.
#[global] Instance async_mbind : MBind async := λ A B f m, async_bind f m.

(** An expression that may throw, used where no handler encloses it. *)
Definition eval {A : Type} (r : settled A) : async A :=
  match r with
  | Fulfilled a => Return a
  | Rejected e => Throw e
  end.

Definition do (c : call) : async () := Call c (Return ()).

(** [await fetch(url, init)] and [await res.json()]: a rejection is thrown
    at the await. *)
Definition fetch (url : string) (init : RequestInit) : async Response :=
  AwaitFetch url init eval.

Definition res_json (res : Response) : async json :=
  AwaitJson res eval.

(** ** The component *)

Definition register_url : string :=
  "https://personal-finance-tracker-gbi4.onrender.com/api/auth/register".

(** The second argument of [fetch] on lines 17 to 21. *)
Definition register_init (st : State) : RequestInit :=
  {| method := "POST";
     headers := [("Content-Type", "application/json")];
     body := JSON_stringify
               [("username", username st); ("email", email st);
                ("password", password st)] |}.

(** [handleSubmit], lines 13 to 31.  [st] is the state of the render whose
    closure the handler is. *)
Definition handleSubmit (st : State) : async () :=
  do preventDefault;;
  do (setError (Val (JStr "")));;
  res ← fetch register_url (register_init st);
  data ← res_json res;
  if negb (ok res) then
    err ← eval (get data "error");
    do (setError err)
  else
    user ← eval (get data "user");
    access_token ← eval (get data "access_token");
    do (login user access_token);;
    do (navigate "/dashboard").

(** The [onChange] handlers of the three inputs. *)
Definition onChange_username (v : string) : async () := do (setUsername v).
Definition onChange_email (v : string) : async () := do (setEmail v).
Definition onChange_password (v : string) : async () := do (setPassword v).

(** Line 38: [error && <p className=...>{error}</p>].  The operator yields
    its left operand when that is falsy, the paragraph otherwise. *)
Inductive node : Type :=
| Child (v : value)
| Element (tag className : string) (children : list value).

Definition error_slot (st : State) : node :=
  if ToBoolean (error st) then Element "p" "text-red-500 text-sm mb-3" [error st]
  else Child (error st).

(** What React puts on the page for a child: nothing for [undefined],
    [null], booleans and the empty string, a text node for another string or
    a number, the children of an array in order; a plain object is refused
    ([None]). *)
Inductive text : Type :=
| Chars (s : string)
| Number (x : float).

Fixpoint json_text (j : json) : option (list text) :=
  match j with
  | JNull => Some []
  | JBool _ => Some []
  | JNum x => Some [Number x]
  | JStr s => if String.eqb s "" then Some [] else Some [Chars s]
  | JArr l =>
      (fix each (l : list json) : option (list text) :=
         match l with
         | [] => Some []
         | j :: l' =>
             match json_text j, each l' with
             | Some t, Some ts => Some (t ++ ts)%list
             | _, _ => None
             end
         end) l
  | JObj _ => None
  end.

Definition value_text (v : value) : option (list text) :=
  match v with
  | Undefined => Some []
  | Val j => json_text j
  end.

Fixpoint children_text (vs : list value) : option (list text) :=
  match vs with
  | [] => Some []
  | v :: vs' =>
      match value_text v, children_text vs' with
      | Some t, Some ts => Some (t ++ ts)%list
      | _, _ => None
      end
  end.

Definition displayed (n : node) : option (list text) :=
  match n with
  | Child v => value_text v
  | Element _ _ children => children_text children
  end.

(** ** Running a handler *)

(** What an observer of the page records: the calls made on the
    collaborators, the requests issued and the bodies read, in order. *)
Inductive event : Type :=
| Called (c : call)
| Requested (url : string) (init : RequestInit)
| BodyRead (res : Response).

(** The component's state, the session held by the authentication context,
    the current route, and the record of what happened so far. *)
Record world : Type := {
  ui : State;
  session : option (value * value);
  route : option string;
  log : list event;
}.

Definition record (e : event) (w : world) : world :=
  {| ui := ui w; session := session w; route := route w; log := (log w ++ [e])%list |}.

Definition with_ui (f : State → State) (w : world) : world :=
  {| ui := f (ui w); session := session w; route := route w; log := log w |}.

(** Modelled from the spec: [login] of ./AuthContext is not part of the
    source at hand.  The session store keeps the user and the token it was
    last given, and returns normally. *)
Definition establishSession (user access_token : value) (w : world) : world :=
  {| ui := ui w; session := Some (user, access_token); route := route w; log := log w |}.

(** Modelled from the spec: [navigate] of the router is not part of the
    source at hand.  The router moves to the path it was last given, and
    returns normally.  Which component the new route shows is decided by the
    routes, which are not part of this source either: the cells of the form
    are kept here after a navigation. *)
Definition navigateTo (to : string) (w : world) : world :=
  {| ui := ui w; session := session w; route := Some to; log := log w |}.

(** The effect of one call.  A state setter stores its argument in its
    cell, also after a navigation (see [navigateTo]); the statements about
    two submissions in flight leave the error state aside where a [setError]
    follows a [navigate]. *)
Definition perform (c : call) (w : world) : world :=
  record (Called c)
    match c with
    | preventDefault => w
    | setUsername v =>
        with_ui (λ st, {| username := v; email := email st;
                          password := password st; error := error st |}) w
    | setEmail v =>
        with_ui (λ st, {| username := username st; email := v;
                          password := password st; error := error st |}) w
    | setPassword v =>
        with_ui (λ st, {| username := username st; email := email st;
                          password := v; error := error st |}) w
    | setError v =>
        with_ui (λ st, {| username := username st; email := email st;
                          password := password st; error := v |}) w
    | login user access_token => establishSession user access_token w
    | navigate to => navigateTo to w
    end.

(** The network: how the promise of each request settles. *)
Definition network : Type := string → RequestInit → settled Response.

(** A handler run to completion, every promise settling as [net] and the
    response say.  The result is the settlement of the promise the [async]
    function returned; the form's [onSubmit] drops that promise, so a
    rejection is an unhandled one. *)
Fixpoint run {A : Type} (net : network) (p : async A) (w : world) : world * settled A :=
  match p with
  | Return a => (w, Fulfilled a)
  | Throw e => (w, Rejected e)
  | Call c k => run net k (perform c w)
  | AwaitFetch url init k => run net (k (net url init)) (record (Requested url init) w)
  | AwaitJson res k => run net (k (json_body res)) (record (BodyRead res) w)
  end.

(** One submission of the form, from the render that shows [ui w]. *)
Definition submit (net : network) (w : world) : world * settled () :=
  run net (handleSubmit (ui w)) w.

(** ** The event loop *)

(** A handler between two turns of the loop: parked at an await, or
    finished with the settlement of its promise. *)
Inductive task : Type :=
| OnFetch (k : settled Response → async ())
| OnJson (res : Response) (k : settled json → async ())
| Finished (r : settled ()).

(** A handler runs without interruption up to its next await. *)
Fixpoint advance (p : async ()) (w : world) : world * task :=
  match p with
  | Return a => (w, Finished (Fulfilled a))
  | Throw e => (w, Finished (Rejected e))
  | Call c k => advance k (perform c w)
  | AwaitFetch url init k => (record (Requested url init) w, OnFetch k)
  | AwaitJson res k => (record (BodyRead res) w, OnJson res k)
  end.

(** What the loop is given to do next: the user types in a field or submits
    the form, the response of the [i]-th submission arrives, or its body has
    been read.  The browser lets a submission through only when the
    constraints of the inputs hold; the handler checks nothing itself. *)
Inductive stimulus : Type :=
| TypeUsername (v : string)
| TypeEmail (v : string)
| TypePassword (v : string)
| Submit
| ResponseSettles (i : nat) (o : settled Response)
| BodySettles (i : nat).

Record loop : Type := {
  now : world;
  tasks : list task;
}.

(** A handler with no await runs to its end within the turn. *)
Definition fire (p : async ()) (l : loop) : loop :=
  {| now := (advance p (now l)).1; tasks := tasks l |}.

Definition spawn (p : async ()) (l : loop) : loop :=
  let '(w, t) := advance p (now l) in
  {| now := w; tasks := (tasks l ++ [t])%list |}.

Definition resume (i : nat) (p : async ()) (l : loop) : loop :=
  let '(w, t) := advance p (now l) in
  {| now := w; tasks := <[i := t]> (tasks l) |}.

(** One turn.  A settlement addressed to a handler that is not waiting for
    it is not a turn of this loop ([None]). *)
Definition turn (l : loop) (s : stimulus) : option loop :=
  match s with
  | TypeUsername v => Some (fire (onChange_username v) l)
  | TypeEmail v => Some (fire (onChange_email v) l)
  | TypePassword v => Some (fire (onChange_password v) l)
  | Submit => Some (spawn (handleSubmit (ui (now l))) l)
  | ResponseSettles i o =>
      match tasks l !! i with
      | Some (OnFetch k) => Some (resume i (k o) l)
      | _ => None
      end
  | BodySettles i =>
      match tasks l !! i with
      | Some (OnJson res k) => Some (resume i (k (json_body res)) l)
      | _ => None
      end
  end.

Fixpoint turns (l : loop) (ss : list stimulus) : option loop :=
  match ss with
  | [] => Some l
  | s :: ss' =>
      match turn l s with
      | Some l' => turns l' ss'
      | None => None
      end
  end.

(** The page as first rendered: four empty strings, nobody logged in. *)
Definition mount : world :=
  {| ui := {| username := ""; email := ""; password := ""; error := Val (JStr "") |};
     session := None; route := None; log := [] |}.

(** ** Reading a request body back *)

(** The receiving side, used to state that nothing is lost on the way: the
    grammar of JSON strings, with the escapes that denote a character below
    128, and an object of exactly the three members of the request. *)
Definition hex_value (c : ascii) : option N :=
  let n := N_of_ascii c in
  if ((48 <=? n) && (n <=? 57))%N then Some (n - 48)%N
  else if ((97 <=? n) && (n <=? 102))%N then Some (n - 87)%N
  else if ((65 <=? n) && (n <=? 70))%N then Some (n - 55)%N
  else None.

Definition unescape (c : ascii) : option ascii :=
  if Ascii.eqb c "b" then Some "008"%char
  else if Ascii.eqb c "t" then Some "009"%char
  else if Ascii.eqb c "n" then Some "010"%char
  else if Ascii.eqb c "f" then Some "012"%char
  else if Ascii.eqb c "r" then Some "013"%char
  else if Ascii.eqb c dquote then Some dquote
  else if Ascii.eqb c backslash then Some backslash
  else if Ascii.eqb c "/" then Some "/"%char
  else None.

Definition code_unit (h1 h2 h3 h4 : ascii) : option ascii :=
  a ← hex_value h1; b ← hex_value h2; c ← hex_value h3; d ← hex_value h4;
  let n := (((a * 16 + b) * 16 + c) * 16 + d)%N in
  if (n <? 128)%N then Some (ascii_of_N n) else None.

Definition cons_fst (c : ascii) (r : string * string) : string * string :=
  (String c r.1, r.2).

(** The characters of a string up to its closing quote, and what follows. *)
Fixpoint read_chars (s : string) : option (string * string) :=
  match s with
  | EmptyString => None
  | String c s' =>
      if Ascii.eqb c dquote then Some ("", s')
      else if Ascii.eqb c backslash then
        match s' with
        | String e s'' =>
            if Ascii.eqb e "u" then
              match s'' with
              | String h1 (String h2 (String h3 (String h4 s3))) =>
                  match code_unit h1 h2 h3 h4 with
                  | Some d => cons_fst d <$> read_chars s3
                  | None => None
                  end
              | _ => None
              end
            else
              match unescape e with
              | Some d => cons_fst d <$> read_chars s''
              | None => None
              end
        | EmptyString => None
        end
      else if (N_of_ascii c <? 32)%N then None
      else cons_fst c <$> read_chars s'
  end.

Definition expect (c : ascii) (s : string) : option string :=
  match s with
  | String c' s' => if Ascii.eqb c c' then Some s' else None
  | EmptyString => None
  end.

Definition read_string (s : string) : option (string * string) :=
  s ← expect dquote s; read_chars s.

Definition read_member (k : string) (s : string) : option (string * string) :=
  '(k', s) ← read_string s;
  if String.eqb k k' then s ← expect ":" s; read_string s else None.

Definition read_body (s : string) : option (string * string * string) :=
  s ← expect "{" s;
  '(u, s) ← read_member "username" s;
  s ← expect "," s;
  '(e, s) ← read_member "email" s;
  s ← expect "," s;
  '(p, s) ← read_member "password" s;
  s ← expect "}" s;
  if String.eqb s "" then Some (u, e, p) else None.

(** * Vocabulary of the statements *)

(** ** Observations on a log *)

Definition calls (l : list event) : list call :=
  omap (λ e, match e with Called c => Some c | _ => None end) l.

Definition requests (l : list event) : list (string * RequestInit) :=
  omap (λ e, match e with Requested url init => Some (url, init) | _ => None end) l.

Definition is_login (c : call) : bool :=
  match c with login _ _ => true | _ => false end.

Definition is_navigate (c : call) : bool :=
  match c with navigate _ => true | _ => false end.

Definition is_setError (c : call) : bool :=
  match c with setError _ => true | _ => false end.

Definition count (p : call → bool) (l : list call) : nat :=
  length (List.filter p l).

(** What was recorded between two worlds of one execution. *)
Definition since (w w' : world) : list event := drop (length (log w)) (log w').

(** What is left on the page and in the session when all is settled. *)
Definition view (w : world) : value * option (value * value) * option string :=
  (error (ui w), session w, route w).

(** ** Pieces of the handler *)

Definition empty_string : value := Val (JStr "").

Definition set_error (v : value) (st : State) : State :=
  {| username := username st; email := email st; password := password st; error := v |}.

(** The value of [data.k] for a [data] that is not [null]. *)
Definition property (data : json) (k : string) : value :=
  from_option Val Undefined (own_property data k).

(** The world the synchronous prefix of the handler (lines 14 to 17) leaves
    when the request has been issued. *)
Definition requested (st : State) (w : world) : world :=
  record (Requested register_url (register_init st))
    (perform (setError empty_string) (perform preventDefault w)).

(** The handler after the request (line 23 on) and after the body (line 25
    on); neither depends on what was typed. *)
Definition on_body (res : Response) (o : settled json) : async () :=
  data ← eval o;
  if negb (ok res) then
    err ← eval (get data "error");
    do (setError err)
  else
    user ← eval (get data "user");
    access_token ← eval (get data "access_token");
    do (login user access_token);;
    do (navigate "/dashboard").

Definition on_response (o : settled Response) : async () :=
  res ← eval o; AwaitJson res (on_body res).

(** What a handler does to the world once its body, not [null], is read. *)
Definition completed (res : Response) (data : json) (w : world) : world :=
  if ok res then
    perform (navigate "/dashboard")
      (perform (login (property data "user") (property data "access_token")) w)
  else perform (setError (property data "error")) w.

(** ** Schedules *)




Definition is_typing (s : stimulus) : bool :=
  match s with
  | TypeUsername _ | TypeEmail _ | TypePassword _ => true
  | _ => false
  end.

(** The fields after the user typed. *)
Fixpoint typed_into (st : State) (edits : list stimulus) : State :=
  match edits with
  | [] => st
  | TypeUsername v :: edits' =>
      typed_into {| username := v; email := email st;
                    password := password st; error := error st |} edits'
  | TypeEmail v :: edits' =>
      typed_into {| username := username st; email := v;
                    password := password st; error := error st |} edits'
  | TypePassword v :: edits' =>
      typed_into {| username := username st; email := email st;
                    password := v; error := error st |} edits'
  | _ :: edits' => typed_into st edits'
  end.

(** What the network answers to the one request of a lone submission, as
    turns of the loop: the response, then its body if there is a response. *)
Definition answers (net : network) (st : State) : list stimulus :=
  let o := net register_url (register_init st) in
  ResponseSettles 0 o ::
  match o with
  | Fulfilled _ => [BodySettles 0]
  | Rejected _ => []
  end.

(** ** Inputs of the examples *)

(** A form filled in, showing the message of an earlier attempt. *)
Definition typed : State :=
  {| username := "ada"; email := "ada@example.org"; password := "secret1";
     error := Val (JStr "Email already exists") |}.

Definition typed_world : world :=
  {| ui := typed; session := None; route := None; log := [] |}.

Definition created : Response :=
  {| status := 201;
     json_body :=
       Fulfilled (JObj (<["user" := JObj (<["id" := JNum 1]> ∅)]>
                          (<["access_token" := JStr "tok"]> ∅))) |}.

Definition conflict : Response :=
  {| status := 409;
     json_body := Fulfilled (JObj (<["error" := JStr "Email already exists"]> ∅)) |}.

Definition gateway_page : Response :=
  {| status := 502;
     json_body := Rejected (SyntaxError "Unexpected token '<'") |}.

Definition bare_failure : Response :=
  {| status := 500; json_body := Fulfilled (JObj (<["message" := JStr "boom"]> ∅)) |}.

Definition null_failure : Response :=
  {| status := 500; json_body := Fulfilled JNull |}.

Definition empty_success : Response :=
  {| status := 200; json_body := Fulfilled (JObj ∅) |}.

Definition null_success : Response :=
  {| status := 200; json_body := Fulfilled JNull |}.

Definition answering (res : Response) : network := λ _ _, Fulfilled res.

Definition offline : network := λ _ _, Rejected (TypeError "Failed to fetch").

(** ** The rendered tree *)

(** The attributes of the JSX of lines 33 to 89: a string, literal or the
    value of an expression ([value={username}]); a number ([minLength={6}]);
    an attribute with no value ([required]); the two kinds of handlers. *)
Inductive attribute : Type :=
| Str (name v : string)
| Num (name : string) (n : Z)
| Flag (name : string)
| OnChange (h : string → async ())
| OnSubmit (h : async ()).

(** An element, a text, or the value of an expression in braces. *)
Inductive element : Type :=
| Text (s : string)
| Slot (n : node)
| Tag (tag : string) (attrs : list attribute) (children : list element).

(** What [Register] returns, lines 33 to 89, for the state [st] of the
    render.  An [onChange] is applied to [e.target.value]. *)
Definition Register (st : State) : element :=
  Tag "div"
    [Str "className"
       "min-h-screen flex items-center justify-center bg-gradient-to-br from-purple-100 to-blue-100"]
    [Tag "form"
       [OnSubmit (handleSubmit st);
        Str "className" "bg-white p-8 rounded-xl shadow-lg w-96"]
       [Tag "h2" [Str "className" "text-2xl font-bold mb-6 text-center"]
          [Text "Register"];
        Slot (error_slot st);
        Tag "input"
          [Str "type" "text"; Str "name" "username"; Str "id" "username";
           Str "className" "w-full mb-4 px-4 py-2 border rounded-lg";
           Str "placeholder" "Username"; Str "value" (username st);
           OnChange onChange_username; Flag "required"] [];
        Tag "input"
          [Str "type" "email"; Str "name" "email"; Str "id" "email";
           Str "className" "w-full mb-4 px-4 py-2 border rounded-lg";
           Str "placeholder" "Email"; Str "value" (email st);
           OnChange onChange_email; Flag "required"] [];
        Tag "input"
          [Str "type" "password"; Str "name" "password"; Str "id" "password";
           Str "className" "w-full mb-4 px-4 py-2 border rounded-lg";
           Str "placeholder" "Password"; Str "value" (password st);
           OnChange onChange_password; Flag "required"; Num "minLength" 6] [];
        Tag "button"
          [Str "type" "submit";
           Str "className"
             "w-full bg-purple-600 text-white py-2 rounded-lg hover:bg-purple-700"]
          [Text "Register"];
        Tag "p" [Str "className" "text-sm text-center mt-4"]
          [Text "Already registered?"; Text " ";
           Tag "Link" [Str "className" "text-blue-600 font-medium"; Str "to" "/login"]
             [Text "Login"]]]].

(** ** Reading the tree *)

(** The attribute lists of the elements with a given tag, in document
    order. *)
Fixpoint tagged (tag : string) (e : element) : list (list attribute) :=
  match e with
  | Text _ => []
  | Slot _ => []
  | Tag t attrs children =>
      ((if String.eqb t tag then [attrs] else []) ++
       (fix each (es : list element) : list (list attribute) :=
          match es with
          | [] => []
          | e' :: es' => (tagged tag e' ++ each es')%list
          end) children)%list
  end.

Fixpoint attr (name : string) (attrs : list attribute) : option string :=
  match attrs with
  | [] => None
  | Str n v :: attrs' => if String.eqb n name then Some v else attr name attrs'
  | _ :: attrs' => attr name attrs'
  end.

Fixpoint change_handler (attrs : list attribute) : option (string → async ()) :=
  match attrs with
  | [] => None
  | OnChange h :: _ => Some h
  | _ :: attrs' => change_handler attrs'
  end.

Fixpoint submit_handler (attrs : list attribute) : option (async ()) :=
  match attrs with
  | [] => None
  | OnSubmit h :: _ => Some h
  | _ :: attrs' => submit_handler attrs'
  end.

(** What the inputs of the page show, top to bottom. *)
Definition shown (st : State) : list (option string) :=
  attr "value" <$> tagged "input" (Register st).

(** ** The outcome of a submission *)

(** The response and parsed body the handler gets to act on: the request
    was answered, the body was read, and it is not [null]. *)
Definition acted_on (o : settled Response) : option (Response * json) :=
  match o with
  | Fulfilled res =>
      match json_body res with
      | Fulfilled JNull => None
      | Fulfilled data => Some (res, data)
      | Rejected _ => None
      end
  | Rejected _ => None
  end.

(** The settlements of the [i]-th submission, as turns of the loop, with
    typing in between. *)
Definition in_flight (i : nat) (res : Response) (before after : list stimulus)
  : list stimulus :=
  (before ++ ResponseSettles i (Fulfilled res) :: after ++ [BodySettles i])%list.

(** Whether the handler got to call [login]. *)
Definition logged_in (o : settled Response) : bool :=
  match acted_on o with
  | Some (res, _) => ok res
  | None => false
  end.

(** Failure responses whose [error] is the empty string, and an object. *)
Definition quiet_failure : Response :=
  {| status := 400; json_body := Fulfilled (JObj (<["error" := JStr ""]> ∅)) |}.

Definition nested_failure : Response :=
  {| status := 422;
     json_body :=
       Fulfilled (JObj (<["error" := JObj (<["email" := JStr "taken"]> ∅)]> ∅)) |}.

(** A success status with no body at all: [res.json()] rejects. *)
Definition no_content : Response :=
  {| status := 204;
     json_body := Rejected (SyntaxError "Unexpected end of JSON input") |}.

(** * Properties *)

(** ** The request body can be read back *)

Lemma append_cons (x : ascii) (a b : string) :
  String x a +:+ b = String x (a +:+ b).
Proof. reflexivity. Qed.

Lemma append_assoc (a b c : string) : (a +:+ b) +:+ c = a +:+ (b +:+ c).
Proof.
  induction a as [|x a IH]; [reflexivity|].
  rewrite !append_cons. f_equal. exact IH.
Qed.

(** One quoted character is read back as itself: by cases on its eight
    bits. *)
Lemma read_chars_quote_char (c : ascii) (rest : string) :
  read_chars (quote_char c +:+ rest) = cons_fst c <$> read_chars rest.
Proof.
  destruct c as [[] [] [] [] [] [] [] []]; reflexivity.
Qed.

Lemma read_chars_quote_chars (s rest : string) :
  read_chars (quote_chars s +:+ String dquote rest) = Some (s, rest).
Proof.
  induction s as [|c s IH]; [reflexivity|].
  change (quote_chars (String c s)) with (quote_char c +:+ quote_chars s).
  rewrite append_assoc, read_chars_quote_char, IH.
  reflexivity.
Qed.

Lemma read_string_quote (s rest : string) :
  read_string (QuoteJSONString s +:+ rest) = Some (s, rest).
Proof.
  unfold QuoteJSONString, read_string.
  rewrite append_cons, append_assoc, append_cons.
  change (expect dquote (String dquote ?x)) with (Some x).
  apply read_chars_quote_chars.
Qed.

Lemma read_member_quote (k v rest : string) :
  read_member k (member (k, v) +:+ rest) = Some (v, rest).
Proof.
  unfold read_member, member. cbn [fst snd].
  rewrite append_assoc, read_string_quote. cbn [mbind option_bind].
  rewrite String.eqb_refl, append_assoc.
  change (expect ":" (":" +:+ ?x)) with (Some x). cbn [mbind option_bind].
  apply read_string_quote.
Qed.

Lemma read_body_stringify (u e p : string) :
  read_body (JSON_stringify [("username", u); ("email", e); ("password", p)])
  = Some (u, e, p).
Proof.
  unfold JSON_stringify, read_body.
  cbn [map String.concat].
  change (expect "{" ("{" +:+ ?x)) with (Some x).
  cbn [mbind option_bind].
  rewrite !append_assoc, read_member_quote. cbn [mbind option_bind].
  change (expect "," ("," +:+ ?x)) with (Some x). cbn [mbind option_bind].
  rewrite read_member_quote. cbn [mbind option_bind].
  change (expect "," ("," +:+ ?x)) with (Some x). cbn [mbind option_bind].
  rewrite read_member_quote. reflexivity.
Qed.

(** Two states that differ in a field send different bodies. *)
Corollary request_body_injective (st st' : State) :
  body (register_init st) = body (register_init st') →
  username st = username st' ∧ email st = email st' ∧ password st = password st'.
Proof.
  intros E. pose proof (read_body_stringify (username st) (email st) (password st)) as R.
  change (JSON_stringify _) with (body (register_init st)) in R.
  rewrite E in R. unfold register_init, body in R.
  rewrite read_body_stringify in R. by simplify_eq.
Qed.

Lemma request_body_injective_witness :
  body (register_init typed) = body (register_init (set_error Undefined typed))
  ∧ username typed = username (set_error Undefined typed).
Proof.
  split; [reflexivity|].
  exact (proj1 (request_body_injective typed (set_error Undefined typed) eq_refl)).
Defined.

Example body_of_typed :
  body (register_init typed) =
  "{" +:+ QuoteJSONString "username" +:+ ":" +:+ QuoteJSONString "ada" +:+ ","
      +:+ QuoteJSONString "email" +:+ ":" +:+ QuoteJSONString "ada@example.org" +:+ ","
      +:+ QuoteJSONString "password" +:+ ":" +:+ QuoteJSONString "secret1" +:+ "}".
Proof. reflexivity. Qed.

(** Leading and trailing spaces, a quote, a backslash and a line feed all
    survive. *)
Example body_keeps_spaces_and_escapes :
  let u := " a" +:+ String dquote (String "010" "b ") in
  read_body (JSON_stringify [("username", u); ("email", " x@y "); ("password", "\ ")])
  = Some (u, " x@y ", "\ ").
Proof. reflexivity. Qed.

(** ** One run of the handler *)

Lemma ok_true (res : Response) : ok res = true ↔ 200 ≤ status res ≤ 299.
Proof. unfold ok. rewrite andb_true_iff, !Z.leb_le. tauto. Qed.

Lemma ok_false (res : Response) : ok res = false ↔ ¬ (200 ≤ status res ≤ 299).
Proof. rewrite <- ok_true. destruct (ok res); split; congruence. Qed.

Lemma get_not_null (data : json) (k : string) :
  data ≠ JNull → get data k = Fulfilled (property data k).
Proof. destruct data; [congruence | reflexivity..]. Qed.

Lemma get_object (m : gmap string json) (k : string) (j : json) :
  m !! k = Some j → get (JObj m) k = Fulfilled (Val j).
Proof. intros H. unfold get, own_property. rewrite H. reflexivity. Qed.

Lemma since_app (w w' : world) (tr : list event) :
  log w' = (log w ++ tr)%list → since w w' = tr.
Proof. intros E. unfold since. rewrite E. apply drop_app_length. Qed.

(** Running a sequence: the second part runs from where the first one
    stopped, unless the first one threw. *)
Lemma run_bind {A B : Type} (net : network) (m : async A) (f : A → async B) (w : world) :
  run net (m ≫= f) w =
  match run net m w with
  | (w', Fulfilled a) => run net (f a) w'
  | (w', Rejected e) => (w', Rejected e)
  end.
Proof.
  revert w. induction m as [a | e | c k IH | url init k IH | res k IH]; intros w;
    cbn; auto.
Qed.

Section OneRun.

Variables (net : network) (st : State) (w : world).

(** The run of the handler, by cases on what the network and the body
    give. *)
Lemma run_handleSubmit :
  run net (handleSubmit st) w =
  match net register_url (register_init st) with
  | Rejected e => (requested st w, Rejected e)
  | Fulfilled res =>
      let w1 := record (BodyRead res) (requested st w) in
      match json_body res with
      | Rejected e => (w1, Rejected e)
      | Fulfilled data =>
          if ok res then
            match get data "user" with
            | Rejected e => (w1, Rejected e)
            | Fulfilled user =>
                match get data "access_token" with
                | Rejected e => (w1, Rejected e)
                | Fulfilled access_token =>
                    (perform (navigate "/dashboard")
                       (perform (login user access_token) w1), Fulfilled ())
                end
            end
          else
            match get data "error" with
            | Rejected e => (w1, Rejected e)
            | Fulfilled err => (perform (setError err) w1, Fulfilled ())
            end
      end
  end.
Proof.
  unfold handleSubmit, requested, empty_string. cbn.
  destruct (net register_url (register_init st)) as [res | e]; cbn; [|reflexivity].
  destruct (json_body res) as [data | e]; cbn; [|reflexivity].
  destruct (ok res); cbn.
  - destruct (get data "user") as [user | e]; cbn; [|reflexivity].
    destruct (get data "access_token") as [tok | e]; reflexivity.
  - destruct (get data "error") as [err | e]; reflexivity.
Qed.

Lemma log_requested :
  log (requested st w) =
  (log w ++ [Called preventDefault; Called (setError empty_string);
             Requested register_url (register_init st)])%list.
Proof. cbn. rewrite <- !app_assoc. reflexivity. Qed.

Lemma log_body_read (res : Response) :
  log (record (BodyRead res) (requested st w)) =
  (log w ++ [Called preventDefault; Called (setError empty_string);
             Requested register_url (register_init st); BodyRead res])%list.
Proof. cbn. rewrite <- !app_assoc. reflexivity. Qed.

(** Whatever the network answers, the run starts with the same three
    events and issues no request after them. *)
Lemma handleSubmit_log :
  ∃ tl : list event,
    log (run net (handleSubmit st) w).1 =
      (log w ++ [Called preventDefault; Called (setError empty_string);
                 Requested register_url (register_init st)] ++ tl)%list
    ∧ requests tl = [].
Proof.
  rewrite run_handleSubmit.
  destruct (net register_url (register_init st)) as [res | e].
  2:{ exists []. cbn [fst]. rewrite log_requested, app_nil_r. auto. }
  cbn zeta. pose proof (log_body_read res) as L.
  destruct (json_body res) as [data | e]; [| by exists [BodyRead res]].
  destruct (ok res).
  - destruct (get data "user") as [user | e]; [| by exists [BodyRead res]].
    destruct (get data "access_token") as [tok | e]; [| by exists [BodyRead res]].
    exists [BodyRead res; Called (login user tok); Called (navigate "/dashboard")].
    split; [|reflexivity]. cbn [fst perform record log establishSession navigateTo].
    cbn [record log] in L. rewrite L, <- !app_assoc. reflexivity.
  - destruct (get data "error") as [err | e]; [| by exists [BodyRead res]].
    exists [BodyRead res; Called (setError err)].
    split; [|reflexivity]. cbn [fst perform record log with_ui].
    cbn [record log] in L. rewrite L, <- !app_assoc. reflexivity.
Qed.

Lemma requests_since :
  requests (since w (run net (handleSubmit st) w).1) =
  [(register_url, register_init st)].
Proof.
  destruct handleSubmit_log as (tl & L & R).
  rewrite (since_app _ _ _ L). unfold requests in *.
  rewrite omap_app, R. reflexivity.
Qed.

(** C5.  Whatever the network answers, one invocation of the handler
    issues exactly one request: a POST to the fixed absolute URL whose path
    is /api/auth/register, with the header Content-Type: application/json. *)
Theorem exactly_one_request :
  requests (since w (run net (handleSubmit st) w).1) =
    [(register_url, register_init st)]
  ∧ method (register_init st) = "POST"
  ∧ headers (register_init st) = [("Content-Type", "application/json")]
  ∧ register_url =
      "https://personal-finance-tracker-gbi4.onrender.com" +:+ "/api/auth/register".
Proof. split; [apply requests_since | repeat split]. Qed.

(** C4.  The handler runs without interruption up to the await of the
    request: by then it has called [setError] with the empty string, before
    issuing the request, and the error state is empty whatever it held; no
    response can have arrived, the handler being parked on the request.  In
    a finished run too, the clearing call comes before the request. *)
Theorem error_cleared_before_request :
  let w1 := (advance (handleSubmit st) w).1 in
  (∃ k, (advance (handleSubmit st) w).2 = OnFetch k)
  ∧ since w w1 =
      [Called preventDefault; Called (setError empty_string);
       Requested register_url (register_init st)]
  ∧ error (ui w1) = empty_string
  ∧ ∃ tl : list event,
      since w (run net (handleSubmit st) w).1 =
      ([Called preventDefault; Called (setError empty_string);
        Requested register_url (register_init st)] ++ tl)%list.
Proof.
  cbv zeta. split; [eexists; reflexivity|].
  split; [apply since_app, log_requested|].
  split; [reflexivity|].
  destruct handleSubmit_log as (tl & L & _).
  exists tl. apply since_app, L.
Qed.

End OneRun.

(** C3.  The one request of a submission carries as its body the JSON
    serialization of the three strings held in the component state, and
    reading that body back yields these three strings, character for
    character. *)
Theorem request_body_round_trip (net : network) (w : world) :
  ∃ init : RequestInit,
    requests (since w (submit net w).1) = [(register_url, init)]
    ∧ body init =
        JSON_stringify [("username", username (ui w)); ("email", email (ui w));
                        ("password", password (ui w))]
    ∧ read_body (body init) =
        Some (username (ui w), email (ui w), password (ui w)).
Proof.
  exists (register_init (ui w)). unfold submit.
  split; [apply requests_since|]. split; [reflexivity|].
  apply read_body_stringify.
Qed.

(** ** The run by what the handler gets to act on *)

Lemma acted_on_parsed (res : Response) (data : json) :
  json_body res = Fulfilled data → data ≠ JNull →
  acted_on (Fulfilled res) = Some (res, data).
Proof. intros H N. unfold acted_on. rewrite H. destruct data; congruence. Qed.

Lemma acted_on_Some (res res' : Response) (data : json) :
  acted_on (Fulfilled res) = Some (res', data) →
  res' = res ∧ json_body res = Fulfilled data ∧ data ≠ JNull.
Proof.
  unfold acted_on. destruct (json_body res) as [d | e]; [|discriminate].
  destruct d; intros [= <- <-]; repeat split; discriminate.
Qed.

(** The run of the handler, by what it gets to act on. *)
Lemma run_acted_on (net : network) (st : State) (w : world) :
  (run net (handleSubmit st) w).1 =
  match acted_on (net register_url (register_init st)) with
  | Some (res, data) => completed res data (record (BodyRead res) (requested st w))
  | None =>
      match net register_url (register_init st) with
      | Fulfilled res => record (BodyRead res) (requested st w)
      | Rejected _ => requested st w
      end
  end.
Proof.
  rewrite run_handleSubmit. unfold acted_on, completed.
  destruct (net register_url (register_init st)) as [res | e]; [|reflexivity].
  cbn zeta. destruct (json_body res) as [data | e]; [|reflexivity].
  destruct data; try (destruct (ok res); reflexivity);
    rewrite !get_not_null by discriminate; destruct (ok res); reflexivity.
Qed.

Lemma since_completed (res : Response) (data : json) (st : State) (w : world) :
  since w (completed res data (record (BodyRead res) (requested st w))) =
  ([Called preventDefault; Called (setError empty_string);
    Requested register_url (register_init st); BodyRead res] ++
   if ok res
   then [Called (login (property data "user") (property data "access_token"));
         Called (navigate "/dashboard")]
   else [Called (setError (property data "error"))])%list.
Proof.
  apply since_app. pose proof (log_body_read st w res) as L.
  unfold completed. destruct (ok res);
    cbn [perform record log establishSession navigateTo with_ui];
    cbn [record log] in L; rewrite L, <- !app_assoc; reflexivity.
Qed.

Lemma view_acted_on (net : network) (st : State) (w : world) :
  view (run net (handleSubmit st) w).1 =
  match acted_on (net register_url (register_init st)) with
  | Some (res, data) =>
      if ok res
      then (empty_string,
            Some (property data "user", property data "access_token"),
            Some "/dashboard")
      else (property data "error", session w, route w)
  | None => (empty_string, session w, route w)
  end.
Proof.
  rewrite run_acted_on. unfold view.
  destruct (acted_on _) as [[res data]|].
  - unfold completed. destruct (ok res); reflexivity.
  - destruct (net _ _); reflexivity.
Qed.

(** The calls of a run, for every answer. *)
Lemma calls_acted_on (net : network) (st : State) (w : world) :
  calls (since w (run net (handleSubmit st) w).1) =
  ([preventDefault; setError empty_string] ++
   match acted_on (net register_url (register_init st)) with
   | Some (res, data) =>
       if ok res
       then [login (property data "user") (property data "access_token");
             navigate "/dashboard"]
       else [setError (property data "error")]
   | None => []
   end)%list.
Proof.
  rewrite run_acted_on.
  destruct (acted_on _) as [[res data]|].
  - rewrite since_completed. destruct (ok res); reflexivity.
  - destruct (net _ _) as [res | e].
    + rewrite (since_app _ _ _ (log_body_read st w res)). reflexivity.
    + rewrite (since_app _ _ _ (log_requested st w)). reflexivity.
Qed.

(** ** A response with a success status *)

(** C1 (amended).  When the response has a 2xx status and its body parses
    to something other than [null], the handler calls [login] exactly once,
    with exactly the values of the [user] and [access_token] properties of
    the parsed body, then calls [navigate] with "/dashboard"; the only
    [setError] of the run is the clearing one, so no error message is
    set. *)
Theorem success_logs_in_once_then_navigates
    (net : network) (st : State) (w : world) (res : Response) (data : json) :
  net register_url (register_init st) = Fulfilled res →
  200 ≤ status res ≤ 299 →
  json_body res = Fulfilled data →
  data ≠ JNull →
  let w' := (run net (handleSubmit st) w).1 in
  (run net (handleSubmit st) w).2 = Fulfilled ()
  ∧ calls (since w w') =
      [preventDefault; setError empty_string;
       login (property data "user") (property data "access_token");
       navigate "/dashboard"]
  ∧ (∀ user, own_property data "user" = Some user →
       property data "user" = Val user)
  ∧ (∀ token, own_property data "access_token" = Some token →
       property data "access_token" = Val token)
  ∧ count is_login (calls (since w w')) = 1%nat
  ∧ count is_navigate (calls (since w w')) = 1%nat
  ∧ count is_setError (calls (since w w')) = 1%nat
  ∧ error (ui w') = empty_string.
Proof.
  intros Hnet Hok%ok_true Hbody Hnull w'.
  assert (R : (run net (handleSubmit st) w).2 = Fulfilled ()).
  { rewrite run_handleSubmit, Hnet. cbn zeta. rewrite Hbody, Hok.
    rewrite !get_not_null by assumption. reflexivity. }
  assert (C : calls (since w w') =
      [preventDefault; setError empty_string;
       login (property data "user") (property data "access_token");
       navigate "/dashboard"]).
  { subst w'. rewrite calls_acted_on, Hnet, (acted_on_parsed _ _ Hbody Hnull), Hok.
    reflexivity. }
  assert (E : error (ui w') = empty_string).
  { pose proof (view_acted_on net st w) as V. unfold view in V.
    rewrite Hnet, (acted_on_parsed _ _ Hbody Hnull), Hok in V.
    injection V as E _ _. exact E. }
  rewrite C. split; [exact R|]. split; [reflexivity|].
  unfold property.
  split; [intros user ->; reflexivity|]. split; [intros token ->; reflexivity|].
  repeat split. exact E.
Qed.

Lemma success_logs_in_once_then_navigates_witness :
  let w' := (run (answering created) (handleSubmit typed) typed_world).1 in
  calls (since typed_world w') =
    [preventDefault; setError empty_string;
     login (Val (JObj (<["id" := JNum 1]> ∅))) (Val (JStr "tok"));
     navigate "/dashboard"]
  ∧ error (ui w') = empty_string.
Proof.
  pose proof (success_logs_in_once_then_navigates (answering created) typed typed_world
                created _ eq_refl ltac:(cbn; lia) eq_refl ltac:(discriminate)) as H.
  cbv zeta in H. destruct H as (_ & C & _ & _ & _ & _ & _ & E).
  cbv zeta. split; [exact C | exact E].
Defined.

(** C1 as stated fails on a 2xx response whose body cannot be read as JSON
    (a 204 has none) and on one whose body is [null]: the handler's promise
    rejects, and neither [login] nor [navigate] is called. *)
Lemma success_status_without_usable_body :
  let r := run (answering no_content) (handleSubmit typed) typed_world in
  let r0 := run (answering null_success) (handleSubmit typed) typed_world in
  (200 ≤ status no_content ≤ 299
   ∧ r.2 = Rejected (SyntaxError "Unexpected end of JSON input")
   ∧ calls (since typed_world r.1) = [preventDefault; setError empty_string]
   ∧ session r.1 = None
   ∧ route r.1 = None)
  ∧ (200 ≤ status null_success ≤ 299
     ∧ calls (since typed_world r0.1) = [preventDefault; setError empty_string])
  ∧ ¬ (∀ (net : network) (st : State) (w : world) (res : Response),
         net register_url (register_init st) = Fulfilled res →
         200 ≤ status res ≤ 299 →
         let w' := (run net (handleSubmit st) w).1 in
         count is_login (calls (since w w')) = 1%nat
         ∧ count is_navigate (calls (since w w')) = 1%nat).
Proof.
  cbv zeta. split; [|split].
  - split; [cbn; lia | repeat split].
  - split; [cbn; lia | reflexivity].
  - intros H.
    specialize (H (answering no_content) typed typed_world no_content
                  eq_refl ltac:(cbn; lia)).
    destruct H as [H _]. discriminate H.
Qed.

(** C10 (amended).  When the response has a 2xx status and its parsed body
    is anything but [null], the handler calls [login] with whatever the
    [user] and [access_token] properties of the body are, [undefined] for
    one that is absent, and then navigates to "/dashboard". *)
Theorem success_shape_not_validated
    (net : network) (st : State) (w : world) (res : Response) (data : json) :
  net register_url (register_init st) = Fulfilled res →
  200 ≤ status res ≤ 299 →
  json_body res = Fulfilled data →
  data ≠ JNull →
  let w' := (run net (handleSubmit st) w).1 in
  (run net (handleSubmit st) w).2 = Fulfilled ()
  ∧ since w w' =
      [Called preventDefault; Called (setError empty_string);
       Requested register_url (register_init st); BodyRead res;
       Called (login (property data "user") (property data "access_token"));
       Called (navigate "/dashboard")]
  ∧ (own_property data "user" = None → property data "user" = Undefined)
  ∧ (own_property data "access_token" = None →
     property data "access_token" = Undefined)
  ∧ session w' = Some (property data "user", property data "access_token")
  ∧ route w' = Some "/dashboard".
Proof.
  intros Hnet Hok%ok_true Hbody Hnull w'.
  assert (E : run net (handleSubmit st) w =
              (perform (navigate "/dashboard")
                 (perform (login (property data "user") (property data "access_token"))
                    (record (BodyRead res) (requested st w))), Fulfilled ())).
  { rewrite run_handleSubmit, Hnet. cbn zeta. rewrite Hbody, Hok.
    rewrite !get_not_null by assumption. reflexivity. }
  assert (S : since w w' =
      [Called preventDefault; Called (setError empty_string);
       Requested register_url (register_init st); BodyRead res;
       Called (login (property data "user") (property data "access_token"));
       Called (navigate "/dashboard")]).
  { apply since_app. subst w'. rewrite E. cbn [fst perform record log
      establishSession navigateTo].
    pose proof (log_body_read st w res) as L. cbn [record log] in L.
    rewrite L, <- !app_assoc. reflexivity. }
  subst w'. rewrite S, E. unfold property.
  repeat split; intros ->; reflexivity.
Qed.

Lemma success_shape_not_validated_witness :
  let w' := (run (answering empty_success) (handleSubmit typed) typed_world).1 in
  since typed_world w' =
    [Called preventDefault; Called (setError empty_string);
     Requested register_url (register_init typed); BodyRead empty_success;
     Called (login Undefined Undefined); Called (navigate "/dashboard")]
  ∧ route w' = Some "/dashboard".
Proof.
  pose proof (success_shape_not_validated (answering empty_success)
                typed typed_world empty_success _
                eq_refl ltac:(cbn; lia) eq_refl ltac:(discriminate)) as H.
  cbv zeta in H. destruct H as (_ & S & _ & _ & _ & R).
  cbv zeta. split; [exact S | exact R].
Defined.

(** C10 as stated fails on a success response whose body is [null]:
    reading [data.user] throws, and neither [login] nor [navigate] is
    called. *)
Lemma success_shape_null_body :
  let r := run (answering null_success) (handleSubmit typed) typed_world in
  (200 ≤ status null_success ≤ 299
   ∧ r.2 = Rejected (TypeError "Cannot read properties of null (reading 'user')")
   ∧ calls (since typed_world r.1) = [preventDefault; setError empty_string]
   ∧ session r.1 = None
   ∧ route r.1 = None)
  ∧ ¬ (∀ (net : network) (st : State) (w : world) (res : Response) (data : json),
         net register_url (register_init st) = Fulfilled res →
         200 ≤ status res ≤ 299 →
         json_body res = Fulfilled data →
         let w' := (run net (handleSubmit st) w).1 in
         count is_login (calls (since w w')) = 1%nat
         ∧ route w' = Some "/dashboard").
Proof.
  cbv zeta. split.
  - split; [cbn; lia | repeat split].
  - intros H.
    specialize (H (answering null_success) typed typed_world null_success JNull
                  eq_refl ltac:(cbn; lia) eq_refl).
    destruct H as [H _]. discriminate H.
Qed.

(** ** A response with a failure status *)

(** C2 (amended).  When the response has a status outside 200..299, the
    handler calls neither [login] nor [navigate]; and when its body parses
    to something other than [null], the handler stores exactly the value of
    the [error] property of the parsed body in the error state. *)
Theorem failure_sets_error_verbatim
    (net : network) (st : State) (w : world) (res : Response) :
  net register_url (register_init st) = Fulfilled res →
  ¬ (200 ≤ status res ≤ 299) →
  let w' := (run net (handleSubmit st) w).1 in
  count is_login (calls (since w w')) = 0%nat
  ∧ count is_navigate (calls (since w w')) = 0%nat
  ∧ session w' = session w
  ∧ route w' = route w
  ∧ ∀ data, json_body res = Fulfilled data → data ≠ JNull →
      (run net (handleSubmit st) w).2 = Fulfilled ()
      ∧ since w w' =
          [Called preventDefault; Called (setError empty_string);
           Requested register_url (register_init st); BodyRead res;
           Called (setError (property data "error"))]
      ∧ error (ui w') = property data "error"
      ∧ ∀ err, own_property data "error" = Some err → error (ui w') = Val err.
Proof.
  intros Hnet Hok%ok_false w'.
  pose proof (calls_acted_on net st w) as C.
  pose proof (view_acted_on net st w) as V. unfold view in V.
  rewrite Hnet in C, V. fold w' in C, V.
  split; [|split; [|split; [|split]]].
  1-4: destruct (acted_on (Fulfilled res)) as [[res' data']|] eqn:A;
    [apply acted_on_Some in A as (-> & _ & _); rewrite Hok in C, V|];
    first [rewrite C; reflexivity | injection V as _ S R; assumption].
  intros data Hbody Hnull.
  rewrite (acted_on_parsed _ _ Hbody Hnull), Hok in V. injection V as E _ _.
  split.
  { rewrite run_handleSubmit, Hnet. cbn zeta. rewrite Hbody, Hok.
    rewrite get_not_null by assumption. reflexivity. }
  split.
  { subst w'. rewrite run_acted_on, Hnet, (acted_on_parsed _ _ Hbody Hnull).
    rewrite since_completed, Hok. reflexivity. }
  split; [exact E|].
  intros err He. rewrite E. unfold property. rewrite He. reflexivity.
Qed.

Lemma failure_sets_error_verbatim_witness :
  let w' := (run (answering conflict) (handleSubmit typed) mount).1 in
  error (ui w') = Val (JStr "Email already exists")
  ∧ session w' = None ∧ route w' = None.
Proof.
  pose proof (failure_sets_error_verbatim (answering conflict) typed mount conflict
                eq_refl ltac:(cbn; lia)) as H.
  cbv zeta in H. destruct H as (_ & _ & S & R & H).
  destruct (H _ eq_refl ltac:(discriminate)) as (_ & _ & _ & E).
  cbv zeta. split; [exact (E _ eq_refl) | split; [exact S | exact R]].
Defined.

(** C2 as stated fails on a failure response whose body cannot be read as
    JSON (the page of a gateway) and on one whose body is [null]: the
    handler's promise rejects, [setError] is not called with anything from
    the body, and the error state stays the empty string. *)
Lemma failure_status_without_usable_body :
  let r := run (answering gateway_page) (handleSubmit typed) typed_world in
  let r0 := run (answering null_failure) (handleSubmit typed) typed_world in
  (¬ (200 ≤ status gateway_page ≤ 299)
   ∧ r.2 = Rejected (SyntaxError "Unexpected token '<'")
   ∧ calls (since typed_world r.1) = [preventDefault; setError empty_string]
   ∧ error (ui r.1) = empty_string)
  ∧ (¬ (200 ≤ status null_failure ≤ 299)
     ∧ calls (since typed_world r0.1) = [preventDefault; setError empty_string]
     ∧ error (ui r0.1) = empty_string)
  ∧ ¬ (∀ (net : network) (st : State) (w : world) (res : Response),
         net register_url (register_init st) = Fulfilled res →
         ¬ (200 ≤ status res ≤ 299) →
         ∃ data, json_body res = Fulfilled data
                 ∧ error (ui (run net (handleSubmit st) w).1) = property data "error")
  ∧ ¬ (∀ (net : network) (st : State) (w : world) (res : Response) (data : json),
         net register_url (register_init st) = Fulfilled res →
         ¬ (200 ≤ status res ≤ 299) →
         json_body res = Fulfilled data →
         error (ui (run net (handleSubmit st) w).1) = property data "error").
Proof.
  cbv zeta. split; [|split; [|split]].
  - split; [cbn; lia | repeat split].
  - split; [cbn; lia | split; reflexivity].
  - intros H.
    destruct (H (answering gateway_page) typed typed_world gateway_page
                eq_refl ltac:(cbn; lia)) as (data & B & _).
    discriminate B.
  - intros H.
    specialize (H (answering null_failure) typed typed_world null_failure JNull
                  eq_refl ltac:(cbn; lia) eq_refl).
    discriminate H.
Qed.

(** The message of the server is what the page shows. *)
Example conflict_message_displayed :
  let w' := (run (answering conflict) (handleSubmit typed) mount).1 in
  error_slot (ui w') =
    Element "p" "text-red-500 text-sm mb-3" [Val (JStr "Email already exists")]
  ∧ displayed (error_slot (ui w')) = Some [Chars "Email already exists"].
Proof. split; reflexivity. Qed.

(** C6.  On a response with a status outside 200..299 the handler leaves
    the three fields as they were, and touches neither the session nor the
    route: of the state, only the error cell can differ. *)
Theorem failure_keeps_fields
    (net : network) (st : State) (w : world) (res : Response) :
  net register_url (register_init st) = Fulfilled res →
  ¬ (200 ≤ status res ≤ 299) →
  let w' := (run net (handleSubmit st) w).1 in
  username (ui w') = username (ui w)
  ∧ email (ui w') = email (ui w)
  ∧ password (ui w') = password (ui w)
  ∧ session w' = session w
  ∧ route w' = route w.
Proof.
  intros Hnet Hok%ok_false. cbv zeta.
  rewrite run_handleSubmit, Hnet. cbn zeta.
  destruct (json_body res) as [data | e]; [| repeat split].
  rewrite Hok. destruct (get data "error"); repeat split.
Qed.

Lemma failure_keeps_fields_witness :
  let w' := (run (answering conflict) (handleSubmit typed) typed_world).1 in
  username (ui w') = "ada" ∧ email (ui w') = "ada@example.org"
  ∧ password (ui w') = "secret1".
Proof.
  pose proof (failure_keeps_fields (answering conflict) typed typed_world conflict
                eq_refl ltac:(cbn; lia)) as H.
  cbv zeta in H. destruct H as (U & E & P & _).
  cbv zeta. split; [exact U | split; [exact E | exact P]].
Defined.

(** C8 (amended).  When the response has a status outside 200..299 and its
    parsed body is not [null] and has no [error] field, the handler calls
    [setError] with [undefined]: no other message takes its place.  The
    error state being falsy, line 38 yields [undefined] itself, for which
    nothing is displayed. *)
Theorem failure_without_error_field
    (net : network) (st : State) (w : world) (res : Response) (data : json) :
  net register_url (register_init st) = Fulfilled res →
  ¬ (200 ≤ status res ≤ 299) →
  json_body res = Fulfilled data →
  data ≠ JNull →
  own_property data "error" = None →
  let w' := (run net (handleSubmit st) w).1 in
  (run net (handleSubmit st) w).2 = Fulfilled ()
  ∧ since w w' =
      [Called preventDefault; Called (setError empty_string);
       Requested register_url (register_init st); BodyRead res;
       Called (setError Undefined)]
  ∧ error (ui w') = Undefined
  ∧ error_slot (ui w') = Child Undefined
  ∧ displayed (error_slot (ui w')) = Some [].
Proof.
  intros Hnet Hok%ok_false Hbody Hnull He w'.
  assert (E : run net (handleSubmit st) w =
              (perform (setError Undefined)
                 (record (BodyRead res) (requested st w)), Fulfilled ())).
  { rewrite run_handleSubmit, Hnet. cbn zeta. rewrite Hbody, Hok.
    rewrite get_not_null by assumption. unfold property. rewrite He. reflexivity. }
  assert (S : since w w' =
      [Called preventDefault; Called (setError empty_string);
       Requested register_url (register_init st); BodyRead res;
       Called (setError Undefined)]).
  { apply since_app. subst w'. rewrite E. cbn [fst perform record log with_ui].
    pose proof (log_body_read st w res) as L. cbn [record log] in L.
    rewrite L, <- !app_assoc. reflexivity. }
  subst w'. rewrite S, E. repeat split.
Qed.

Lemma failure_without_error_field_witness :
  let w' := (run (answering bare_failure) (handleSubmit typed) typed_world).1 in
  error (ui w') = Undefined ∧ displayed (error_slot (ui w')) = Some [].
Proof.
  pose proof (failure_without_error_field (answering bare_failure)
                typed typed_world bare_failure _
                eq_refl ltac:(cbn; lia) eq_refl ltac:(discriminate) eq_refl) as H.
  cbv zeta in H. destruct H as (_ & _ & E & _ & D).
  cbv zeta. split; [exact E | exact D].
Defined.

(** C8 as stated fails on a failure response whose body is [null]: that
    body has no [error] field, yet reading [data.error] throws, [setError]
    is not called a second time and the error state stays the empty
    string. *)
Lemma failure_without_error_field_null_body :
  let r := run (answering null_failure) (handleSubmit typed) typed_world in
  (¬ (200 ≤ status null_failure ≤ 299)
   ∧ own_property JNull "error" = None
   ∧ r.2 = Rejected (TypeError "Cannot read properties of null (reading 'error')")
   ∧ calls (since typed_world r.1) = [preventDefault; setError empty_string]
   ∧ error (ui r.1) = empty_string)
  ∧ ¬ (∀ (net : network) (st : State) (w : world) (res : Response) (data : json),
         net register_url (register_init st) = Fulfilled res →
         ¬ (200 ≤ status res ≤ 299) →
         json_body res = Fulfilled data →
         own_property data "error" = None →
         error (ui (run net (handleSubmit st) w).1) = Undefined).
Proof.
  cbv zeta. split.
  - split; [cbn; lia | repeat split].
  - intros H.
    specialize (H (answering null_failure) typed typed_world null_failure JNull
                  eq_refl ltac:(cbn; lia) eq_refl eq_refl).
    discriminate H.
Qed.

(** ** Failures of the transport and of the parse *)

(** C7.  When the request rejects, or the response arrives and its body
    cannot be read as JSON, the promise of the handler rejects with that
    very reason: nothing is caught.  After the clearing call no [setError]
    is made, so the error state is empty; [login] and [navigate] are not
    called.  The body of a response that arrived is read whatever its
    status. *)
Theorem transport_or_parse_failure_propagates
    (net : network) (st : State) (w : world) (e : exn) :
  net register_url (register_init st) = Rejected e
  ∨ (∃ res, net register_url (register_init st) = Fulfilled res
            ∧ json_body res = Rejected e) →
  let w' := (run net (handleSubmit st) w).1 in
  (run net (handleSubmit st) w).2 = Rejected e
  ∧ calls (since w w') = [preventDefault; setError empty_string]
  ∧ error (ui w') = empty_string
  ∧ session w' = session w
  ∧ route w' = route w
  ∧ ∀ res, net register_url (register_init st) = Fulfilled res →
      since w w' =
      [Called preventDefault; Called (setError empty_string);
       Requested register_url (register_init st); BodyRead res].
Proof.
  intros [Hnet | (res & Hnet & Hbody)]; cbv zeta;
    rewrite run_handleSubmit, Hnet; cbn zeta; [|rewrite Hbody]; cbn [fst snd].
  - rewrite (since_app _ _ _ (log_requested st w)). repeat split. congruence.
  - rewrite (since_app _ _ _ (log_body_read st w res)).
    repeat split. intros res' [= <-]. reflexivity.
Qed.

Lemma transport_or_parse_failure_propagates_witness :
  let r := run (answering gateway_page) (handleSubmit typed) typed_world in
  r.2 = Rejected (SyntaxError "Unexpected token '<'")
  ∧ calls (since typed_world r.1) = [preventDefault; setError empty_string]
  ∧ error (ui r.1) = empty_string.
Proof.
  pose proof (transport_or_parse_failure_propagates
                (answering gateway_page) typed typed_world
                (SyntaxError "Unexpected token '<'")
                (or_intror (ex_intro _ gateway_page (conj eq_refl eq_refl)))) as H.
  cbv zeta in H. destruct H as (R & C & E & _).
  cbv zeta. split; [exact R | split; [exact C | exact E]].
Defined.

Example offline_rejects :
  (run offline (handleSubmit typed) typed_world).2
  = Rejected (TypeError "Failed to fetch").
Proof. reflexivity. Qed.

(** ** The handler in the event loop *)

Lemma handleSubmit_unfold (st : State) :
  handleSubmit st =
  Call preventDefault
    (Call (setError empty_string)
       (AwaitFetch register_url (register_init st) on_response)).
Proof. reflexivity. Qed.

Lemma on_response_fulfilled (res : Response) :
  on_response (Fulfilled res) = AwaitJson res (on_body res).
Proof. reflexivity. Qed.

Lemma advance_on_body (res : Response) (data : json) (w : world) :
  data ≠ JNull →
  advance (on_body res (Fulfilled data)) w = (completed res data w, Finished (Fulfilled ())).
Proof.
  intros Hnull. unfold on_body, completed. cbn.
  destruct (ok res); cbn; rewrite !get_not_null by assumption; reflexivity.
Qed.

Lemma turns_app (l : loop) (ss ss' : list stimulus) :
  turns l (ss ++ ss') = l' ← turns l ss; turns l' ss'.
Proof.
  revert l. induction ss as [|s ss IH]; intros l; [reflexivity|].
  cbn. destruct (turn l s); [apply IH | reflexivity].
Qed.

Lemma turn_Submit (l : loop) :
  turn l Submit =
  Some {| now := requested (ui (now l)) (now l);
          tasks := (tasks l ++ [OnFetch on_response])%list |}.
Proof. reflexivity. Qed.

Lemma turn_ResponseSettles (l : loop) (i : nat) (res : Response) :
  tasks l !! i = Some (OnFetch on_response) →
  turn l (ResponseSettles i (Fulfilled res)) =
  Some {| now := record (BodyRead res) (now l);
          tasks := <[i := OnJson res (on_body res)]> (tasks l) |}.
Proof. intros H. cbn [turn]. rewrite H. reflexivity. Qed.

Lemma turn_BodySettles (l : loop) (i : nat) (res : Response) (data : json) :
  tasks l !! i = Some (OnJson res (on_body res)) →
  json_body res = Fulfilled data →
  data ≠ JNull →
  turn l (BodySettles i) =
  Some {| now := completed res data (now l);
          tasks := <[i := Finished (Fulfilled ())]> (tasks l) |}.
Proof.
  intros H Hbody Hnull. cbn [turn]. rewrite H, Hbody.
  unfold resume. rewrite advance_on_body by assumption. reflexivity.
Qed.

(** A submission with nothing else going on: the loop, given the answers
    of the network one turn after the other, ends where [run] ends, and the
    promise of the handler is settled as [run] says. *)
Lemma lone_submission_is_run (net : network) (w : world) :
  turns {| now := w; tasks := [] |} (Submit :: answers net (ui w)) =
  Some {| now := (submit net w).1; tasks := [Finished (submit net w).2] |}.
Proof.
  unfold submit, answers. rewrite run_handleSubmit.
  cbn [turns]. rewrite turn_Submit. cbn [now tasks app].
  destruct (net register_url (register_init (ui w))) as [res | e]; [|reflexivity].
  cbn [turns]. rewrite turn_ResponseSettles by reflexivity.
  cbn [turn now tasks]. cbn [lookup list_lookup list_insert insert].
  unfold resume, on_body. cbn [now tasks].
  destruct (json_body res) as [data | e]; [|reflexivity].
  cbn [eval mbind async_mbind async_bind].
  destruct (ok res); cbn [negb].
  - destruct (get data "user") as [user | e]; [|reflexivity].
    destruct (get data "access_token") as [tok | e]; reflexivity.
  - destruct (get data "error") as [err | e]; reflexivity.
Qed.

(** A promise that rejected stays so: no later turn is addressed to a
    finished handler. *)
Lemma finished_takes_no_settlement (l : loop) (i : nat) (r : settled ()) (s : stimulus) :
  tasks l !! i = Some (Finished r) →
  (s = BodySettles i ∨ ∃ o, s = ResponseSettles i o) →
  turn l s = None.
Proof. intros H [-> | [o ->]]; cbn [turn]; rewrite H; reflexivity. Qed.

(** Typing changes the fields and nothing else. *)
Lemma turns_typing (l : loop) (edits : list stimulus) :
  forallb is_typing edits = true →
  ∃ l', turns l edits = Some l'
    ∧ tasks l' = tasks l
    ∧ ui (now l') = typed_into (ui (now l)) edits
    ∧ session (now l') = session (now l)
    ∧ route (now l') = route (now l)
    ∧ requests (log (now l')) = requests (log (now l)).
Proof.
  revert l. induction edits as [|s edits IH]; intros l Hall.
  { exists l. repeat split. }
  cbn in Hall. apply andb_true_iff in Hall as [Hs Hall].
  destruct s; try discriminate Hs; cbn [turns turn];
    match goal with
    | |- context [fire ?p l] =>
        destruct (IH (fire p l) Hall) as (l' & T & K & U & S & R & Q)
    end;
    exists l'; (split; [exact T|]); (split; [exact K|]);
    (split; [rewrite U; reflexivity|]); (split; [exact S|]); (split; [exact R|]);
    rewrite Q; cbn; unfold requests; rewrite omap_app; cbn; apply app_nil_r.
Qed.

Lemma typed_into_set_error (v : value) (st : State) (edits : list stimulus) :
  typed_into (set_error v st) edits = set_error v (typed_into st edits).
Proof.
  revert st. induction edits as [|s edits IH]; intros st; [reflexivity|].
  destruct s; cbn [typed_into]; try apply IH; rewrite <- IH; reflexivity.
Qed.

(** ** What each step leaves of the world *)

Lemma requests_record_request (url : string) (init : RequestInit) (w : world) :
  requests (log (record (Requested url init) w)) =
  (requests (log w) ++ [(url, init)])%list.
Proof. cbn. unfold requests. rewrite omap_app. reflexivity. Qed.

Lemma requests_record_body (res : Response) (w : world) :
  requests (log (record (BodyRead res) w)) = requests (log w).
Proof. cbn. unfold requests. rewrite omap_app. apply app_nil_r. Qed.

Lemma requests_perform (c : call) (w : world) :
  requests (log (perform c w)) = requests (log w).
Proof.
  unfold perform. cbn [record log]. unfold requests. rewrite omap_app.
  cbn [omap]. rewrite app_nil_r. destruct c; reflexivity.
Qed.

Lemma requests_requested (st : State) (w : world) :
  requests (log (requested st w)) =
  (requests (log w) ++ [(register_url, register_init st)])%list.
Proof.
  unfold requested. rewrite requests_record_request, !requests_perform. reflexivity.
Qed.

Lemma requests_completed (res : Response) (data : json) (w : world) :
  requests (log (completed res data w)) = requests (log w).
Proof. unfold completed. destruct (ok res); rewrite !requests_perform; reflexivity. Qed.

Lemma error_completed (res : Response) (data : json) (w : world) :
  error (ui (completed res data w)) =
  if ok res then error (ui w) else property data "error".
Proof. unfold completed. destruct (ok res); reflexivity. Qed.

Lemma session_completed (res : Response) (data : json) (w : world) :
  session (completed res data w) =
  if ok res then Some (property data "user", property data "access_token")
  else session w.
Proof. unfold completed. destruct (ok res); reflexivity. Qed.

Lemma route_completed (res : Response) (data : json) (w : world) :
  route (completed res data w) = if ok res then Some "/dashboard" else route w.
Proof. unfold completed. destruct (ok res); reflexivity. Qed.

Lemma ui_record (e : event) (w : world) : ui (record e w) = ui w.
Proof. reflexivity. Qed.

Lemma session_record (e : event) (w : world) : session (record e w) = session w.
Proof. reflexivity. Qed.

Lemma route_record (e : event) (w : world) : route (record e w) = route w.
Proof. reflexivity. Qed.

Lemma ui_requested (st : State) (w : world) :
  ui (requested st w) = set_error empty_string (ui w).
Proof. reflexivity. Qed.

Lemma session_requested (st : State) (w : world) :
  session (requested st w) = session w.
Proof. reflexivity. Qed.

Lemma route_requested (st : State) (w : world) : route (requested st w) = route w.
Proof. reflexivity. Qed.

Create Rewrite HintDb world.
#[local] Hint Rewrite requests_record_request requests_record_body requests_perform
  requests_requested requests_completed error_completed session_completed
  route_completed ui_record session_record route_record ui_requested
  session_requested route_requested : world.

(** ** Two submissions in flight *)





(** * Further properties *)

(** ** Every answer of the network *)

Lemma shown_fields (st st' : State) :
  username st = username st' → email st = email st' → password st = password st' →
  shown st = shown st'.
Proof. intros U E P. unfold shown. cbn. rewrite U, E, P. reflexivity. Qed.

Lemma fields_after_run (net : network) (st : State) (w : world) :
  username (ui (run net (handleSubmit st) w).1) = username (ui w)
  ∧ email (ui (run net (handleSubmit st) w).1) = email (ui w)
  ∧ password (ui (run net (handleSubmit st) w).1) = password (ui w).
Proof.
  rewrite run_acted_on.
  destruct (acted_on _) as [[res data]|].
  - unfold completed. destruct (ok res); repeat split.
  - destruct (net _ _); repeat split.
Qed.

(** Whatever the network answers, the handler leaves the three fields as
    they are, so the inputs go on showing what they showed: nothing is
    cleared, after a success either. *)
Theorem handler_never_touches_fields (net : network) (st : State) (w : world) :
  let w' := (run net (handleSubmit st) w).1 in
  username (ui w') = username (ui w)
  ∧ email (ui w') = email (ui w)
  ∧ password (ui w') = password (ui w)
  ∧ shown (ui w') = shown (ui w).
Proof.
  cbv zeta. destruct (fields_after_run net st w) as (U & E & P).
  repeat split; try assumption. apply shown_fields; assumption.
Qed.

(** [login] and [navigate] are called, once each and in this order, exactly
    when the request was answered with a 2xx status and a body that parsed
    to something other than [null]; in every other case neither is called
    and the session and the route stay as they were. *)
Theorem login_exactly_on_success (net : network) (st : State) (w : world) :
  let w' := (run net (handleSubmit st) w).1 in
  match acted_on (net register_url (register_init st)) with
  | Some (res, data) =>
      if ok res then
        List.filter (λ c, is_login c || is_navigate c) (calls (since w w')) =
          [login (property data "user") (property data "access_token");
           navigate "/dashboard"]
        ∧ session w' = Some (property data "user", property data "access_token")
        ∧ route w' = Some "/dashboard"
      else
        List.filter (λ c, is_login c || is_navigate c) (calls (since w w')) = []
        ∧ session w' = session w ∧ route w' = route w
  | None =>
      List.filter (λ c, is_login c || is_navigate c) (calls (since w w')) = []
      ∧ session w' = session w ∧ route w' = route w
  end.
Proof.
  cbv zeta. rewrite run_acted_on.
  destruct (acted_on _) as [[res data]|] eqn:A.
  - rewrite since_completed. unfold completed. destruct (ok res); repeat split.
  - destruct (net _ _) as [res | e].
    + rewrite (since_app _ _ _ (log_body_read st w res)). repeat split.
    + rewrite (since_app _ _ _ (log_requested st w)). repeat split.
Qed.

(** The error state after a run holds the [error] property of the body when
    the request was answered with a status outside 200..299 and a body that
    parsed to something other than [null], and the empty string in every
    other case: what it held before the submission never survives. *)
Theorem error_after_every_run (net : network) (st : State) (w : world) :
  error (ui (run net (handleSubmit st) w).1) =
  match acted_on (net register_url (register_init st)) with
  | Some (res, data) => if ok res then empty_string else property data "error"
  | None => empty_string
  end.
Proof.
  pose proof (view_acted_on net st w) as V. unfold view in V.
  destruct (acted_on _) as [[res data]|]; [destruct (ok res)|];
    injection V as E _ _; exact E.
Qed.

Lemma result_acted_on (net : network) (st : State) (w : world) :
  match acted_on (net register_url (register_init st)) with
  | Some _ => (run net (handleSubmit st) w).2 = Fulfilled ()
  | None => ∃ e, (run net (handleSubmit st) w).2 = Rejected e
  end.
Proof.
  rewrite run_handleSubmit. unfold acted_on.
  destruct (net register_url (register_init st)) as [res | e]; cbn zeta; [|eauto].
  destruct (json_body res) as [data | e]; [|eauto].
  destruct data; try (rewrite !get_not_null by discriminate; destruct (ok res);
                      reflexivity).
  destruct (ok res); cbn; eauto.
Qed.

(** The promise of the handler is fulfilled exactly when the handler got to
    act on a body: it rejects when the request rejects, when the body
    cannot be read, and when the body is [null], and in no other case. *)
Theorem promise_fulfilled_iff_acted_on (net : network) (st : State) (w : world) :
  ((run net (handleSubmit st) w).2 = Fulfilled ()
   ↔ is_Some (acted_on (net register_url (register_init st))))
  ∧ ((∃ e, (run net (handleSubmit st) w).2 = Rejected e)
     ↔ acted_on (net register_url (register_init st)) = None).
Proof.
  pose proof (result_acted_on net st w) as H.
  destruct (acted_on _) as [p|].
  - rewrite H. split; split; [eauto | reflexivity | intros [? [=]] | discriminate].
  - destruct H as [e ->].
    split; split; [discriminate | intros [? [=]] | reflexivity | eauto].
Qed.

Lemma result_from_answer (net net' : network) (st st' : State) (w w' : world) :
  net register_url (register_init st) = net' register_url (register_init st') →
  (run net (handleSubmit st) w).2 = (run net' (handleSubmit st') w').2.
Proof.
  intros E. rewrite !run_handleSubmit, E.
  destruct (net' _ _) as [res | e]; [|reflexivity]. cbn zeta.
  destruct (json_body res) as [data | e]; [|reflexivity].
  destruct (ok res).
  - destruct (get data "user"); [|reflexivity].
    destruct (get data "access_token"); reflexivity.
  - destruct (get data "error"); reflexivity.
Qed.

(** What the user typed reaches the outside through the request and
    nothing else: two submissions whose requests get the same answer make
    the same calls, with the same arguments, settle their promises alike
    and end in the same error state, session and route, whatever the
    username, email and password of each. *)
Theorem typed_values_reach_only_the_request
    (net net' : network) (st st' : State) (w : world) :
  net register_url (register_init st) = net' register_url (register_init st') →
  calls (since w (run net (handleSubmit st) w).1) =
    calls (since w (run net' (handleSubmit st') w).1)
  ∧ (run net (handleSubmit st) w).2 = (run net' (handleSubmit st') w).2
  ∧ view (run net (handleSubmit st) w).1 = view (run net' (handleSubmit st') w).1.
Proof.
  intros E. rewrite !calls_acted_on, !view_acted_on, E.
  split; [reflexivity|]. split; [|reflexivity].
  apply result_from_answer, E.
Qed.

Lemma typed_values_reach_only_the_request_witness :
  calls (since mount (run (answering conflict) (handleSubmit typed) mount).1) =
    calls (since mount (run (answering conflict) (handleSubmit (ui mount)) mount).1)
  ∧ view (run (answering conflict) (handleSubmit typed) mount).1 =
      view (run (answering conflict) (handleSubmit (ui mount)) mount).1.
Proof.
  pose proof (typed_values_reach_only_the_request (answering conflict)
                (answering conflict) typed (ui mount) mount eq_refl) as H.
  destruct H as (C & _ & V). split; [exact C | exact V].
Defined.

(** A failed attempt leaves no trace once the form is submitted again:
    when the first submission did not get to log in, the second one sends
    the same request, settles its promise and ends in the same error state,
    session and route as if the first had never been made. *)
Theorem retry_forgets_failure (net1 net2 : network) (w : world) :
  logged_in (net1 register_url (register_init (ui w))) = false →
  let w1 := (submit net1 w).1 in
  requests (since w1 (submit net2 w1).1) = requests (since w (submit net2 w).1)
  ∧ (submit net2 w1).2 = (submit net2 w).2
  ∧ view (submit net2 w1).1 = view (submit net2 w).1.
Proof.
  intros F. cbv zeta. unfold submit.
  pose proof (fields_after_run net1 (ui w) w) as (U & E & P).
  assert (I : register_init (ui (run net1 (handleSubmit (ui w)) w).1) =
              register_init (ui w)).
  { unfold register_init. rewrite U, E, P. reflexivity. }
  pose proof (view_acted_on net1 (ui w) w) as V1. unfold logged_in in F.
  assert (S : session (run net1 (handleSubmit (ui w)) w).1 = session w
              ∧ route (run net1 (handleSubmit (ui w)) w).1 = route w).
  { unfold view in V1. destruct (acted_on _) as [[res data]|].
    - rewrite F in V1. injection V1 as _ HS HR. split; [exact HS | exact HR].
    - injection V1 as _ HS HR. split; [exact HS | exact HR]. }
  destruct S as [S R].
  rewrite !requests_since, !view_acted_on, I, S, R.
  split; [reflexivity|]. split; [|reflexivity].
  apply result_from_answer. rewrite I. reflexivity.
Qed.

Lemma retry_forgets_failure_witness :
  let w1 := (submit (answering conflict) typed_world).1 in
  view w1 = (Val (JStr "Email already exists"), None, None)
  ∧ view (submit (answering created) w1).1 =
      view (submit (answering created) typed_world).1.
Proof.
  pose proof (retry_forgets_failure (answering conflict) (answering created)
                typed_world eq_refl) as H.
  cbv zeta in H. destruct H as (_ & _ & V).
  cbv zeta. split; [reflexivity | exact V].
Defined.

(** ** What the page shows after a failure *)

Lemma error_after_failure
    (net : network) (st : State) (w : world) (res : Response) (data : json) :
  net register_url (register_init st) = Fulfilled res →
  ¬ (200 ≤ status res ≤ 299) →
  json_body res = Fulfilled data →
  data ≠ JNull →
  error (ui (run net (handleSubmit st) w).1) = property data "error".
Proof.
  intros Hnet Hok%ok_false Hbody Hnull.
  pose proof (view_acted_on net st w) as V. unfold view in V.
  rewrite Hnet in V. unfold acted_on in V. rewrite Hbody in V.
  destruct data; try congruence; rewrite Hok in V; injection V as E _ _; exact E.
Qed.

(** When the response has a status outside 200..299 and the [error] of its
    body is a string that is not empty, the page shows the paragraph of
    line 38 with exactly that string as its text. *)
Theorem string_error_displayed_verbatim
    (net : network) (st : State) (w : world) (res : Response) (data : json)
    (s : string) :
  net register_url (register_init st) = Fulfilled res →
  ¬ (200 ≤ status res ≤ 299) →
  json_body res = Fulfilled data →
  own_property data "error" = Some (JStr s) →
  s ≠ "" →
  let w' := (run net (handleSubmit st) w).1 in
  error_slot (ui w') = Element "p" "text-red-500 text-sm mb-3" [Val (JStr s)]
  ∧ displayed (error_slot (ui w')) = Some [Chars s].
Proof.
  intros Hnet Hok Hbody He Hs. cbv zeta.
  assert (Hnull : data ≠ JNull) by (intros ->; discriminate He).
  pose proof (error_after_failure net st w res data Hnet Hok Hbody Hnull) as E.
  unfold property in E. rewrite He in E. cbn [from_option] in E.
  unfold error_slot. rewrite E. cbn [ToBoolean].
  apply String.eqb_neq in Hs. rewrite Hs. cbn [negb].
  split; [reflexivity|]. cbn. rewrite Hs. reflexivity.
Qed.

Lemma string_error_displayed_verbatim_witness :
  displayed (error_slot (ui (run (answering conflict) (handleSubmit typed) mount).1))
  = Some [Chars "Email already exists"].
Proof.
  pose proof (string_error_displayed_verbatim (answering conflict) typed mount
                conflict _ "Email already exists"
                eq_refl ltac:(cbn; lia) eq_refl eq_refl ltac:(discriminate)) as H.
  cbv zeta in H. exact (proj2 H).
Defined.

(** When the response has a status outside 200..299 and the [error] of its
    body, not [null], is falsy (absent, [null], [false], the empty string,
    zero), line 38 yields that value and no paragraph: unless it is a
    number, the page shows nothing at all about the failure. *)
Theorem falsy_error_shows_no_paragraph
    (net : network) (st : State) (w : world) (res : Response) (data : json) :
  net register_url (register_init st) = Fulfilled res →
  ¬ (200 ≤ status res ≤ 299) →
  json_body res = Fulfilled data →
  data ≠ JNull →
  ToBoolean (property data "error") = false →
  let w' := (run net (handleSubmit st) w).1 in
  error_slot (ui w') = Child (property data "error")
  ∧ ((∀ x, property data "error" ≠ Val (JNum x)) →
     displayed (error_slot (ui w')) = Some []).
Proof.
  intros Hnet Hok Hbody Hnull Hf. cbv zeta.
  pose proof (error_after_failure net st w res data Hnet Hok Hbody Hnull) as E.
  unfold error_slot. rewrite E, Hf. split; [reflexivity|].
  intros Hnum. cbn [displayed].
  destruct (property data "error") as [|[| b | x | s | l | m]]; cbn in Hf |- *;
    try reflexivity; try discriminate Hf.
  - exfalso. exact (Hnum x eq_refl).
  - destruct (String.eqb s ""); [reflexivity | discriminate Hf].
Qed.

Lemma falsy_error_shows_no_paragraph_witness :
  let w' := (run (answering quiet_failure) (handleSubmit typed) typed_world).1 in
  error_slot (ui w') = Child empty_string
  ∧ displayed (error_slot (ui w')) = Some [].
Proof.
  pose proof (falsy_error_shows_no_paragraph (answering quiet_failure) typed
                typed_world quiet_failure _
                eq_refl ltac:(cbn; lia) eq_refl ltac:(discriminate) eq_refl) as H.
  cbv zeta in H. destruct H as [S D].
  cbv zeta. split; [exact S | apply D; discriminate].
Defined.

(** When the response has a status outside 200..299 and the [error] of its
    body is an object, the error state holds that object and the paragraph
    of line 38 has it as its child, which React refuses to render. *)
Theorem object_error_cannot_be_rendered
    (net : network) (st : State) (w : world) (res : Response) (data : json)
    (m : gmap string json) :
  net register_url (register_init st) = Fulfilled res →
  ¬ (200 ≤ status res ≤ 299) →
  json_body res = Fulfilled data →
  own_property data "error" = Some (JObj m) →
  let w' := (run net (handleSubmit st) w).1 in
  error (ui w') = Val (JObj m)
  ∧ error_slot (ui w') = Element "p" "text-red-500 text-sm mb-3" [Val (JObj m)]
  ∧ displayed (error_slot (ui w')) = None.
Proof.
  intros Hnet Hok Hbody He. cbv zeta.
  assert (Hnull : data ≠ JNull) by (intros ->; discriminate He).
  pose proof (error_after_failure net st w res data Hnet Hok Hbody Hnull) as E.
  unfold property in E. rewrite He in E. cbn [from_option] in E.
  unfold error_slot. rewrite E. repeat split.
Qed.

Lemma object_error_cannot_be_rendered_witness :
  displayed
    (error_slot (ui (run (answering nested_failure) (handleSubmit typed) mount).1))
  = None.
Proof.
  pose proof (object_error_cannot_be_rendered (answering nested_failure) typed mount
                nested_failure _ (<["email" := JStr "taken"]> ∅)
                eq_refl ltac:(cbn; lia) eq_refl eq_refl) as H.
  cbv zeta in H. exact (proj2 (proj2 H)).
Defined.

(** ** Typing *)

Lemma error_typed_into (st : State) (edits : list stimulus) :
  error (typed_into st edits) = error st.
Proof.
  revert st. induction edits as [|s edits IH]; intros st; [reflexivity|].
  destruct s; cbn [typed_into]; rewrite IH; reflexivity.
Qed.

Lemma typed_into_app (st : State) (edits edits' : list stimulus) :
  typed_into st (edits ++ edits') = typed_into (typed_into st edits) edits'.
Proof.
  revert st. induction edits as [|s edits IH]; intros st; [reflexivity|].
  destruct s; cbn [typed_into app]; apply IH.
Qed.

(** Typing, however much, changes the fields only: the error state and
    with it what line 38 shows stay as they are (a message is not cleared by
    editing), no request is issued, the session and the route are untouched,
    and the handlers in flight stay parked. *)
Theorem typing_keeps_message (l : loop) (edits : list stimulus) :
  forallb is_typing edits = true →
  ∃ l', turns l edits = Some l'
    ∧ error (ui (now l')) = error (ui (now l))
    ∧ error_slot (ui (now l')) = error_slot (ui (now l))
    ∧ tasks l' = tasks l
    ∧ session (now l') = session (now l)
    ∧ route (now l') = route (now l)
    ∧ requests (log (now l')) = requests (log (now l)).
Proof.
  intros H. destruct (turns_typing l edits H) as (l' & T & K & U & S & R & Q).
  exists l'. split; [exact T|].
  assert (E : error (ui (now l')) = error (ui (now l))).
  { rewrite U. apply error_typed_into. }
  split; [exact E|]. split; [unfold error_slot; rewrite E; reflexivity|].
  auto.
Qed.

Lemma typing_keeps_message_witness :
  ∃ l', turns {| now := typed_world; tasks := [] |}
          [TypeEmail "ada@example.com"; TypePassword ""; TypeUsername "a"] = Some l'
    ∧ error (ui (now l')) = Val (JStr "Email already exists").
Proof.
  destruct (typing_keeps_message {| now := typed_world; tasks := [] |}
              [TypeEmail "ada@example.com"; TypePassword ""; TypeUsername "a"] eq_refl)
    as (l' & T & E & _).
  exists l'. split; [exact T | exact E].
Defined.

Lemma fields_completed (res : Response) (data : json) (w : world) :
  username (ui (completed res data w)) = username (ui w)
  ∧ email (ui (completed res data w)) = email (ui w)
  ∧ password (ui (completed res data w)) = password (ui w).
Proof. unfold completed. destruct (ok res); repeat split. Qed.

(** What is typed while a request is in flight is kept, and changes
    nothing of the submission: from any state of the loop, a submission
    answered by a response whose body, not [null], is read, with typing
    before and after the response, runs to its end; the request carries the
    fields as they were when the form was submitted, the inputs show
    everything typed since, and the error state, session and route are
    those the response gives. *)
Theorem edits_in_flight_are_kept
    (l : loop) (res : Response) (data : json) (before after : list stimulus) :
  forallb is_typing before = true →
  forallb is_typing after = true →
  json_body res = Fulfilled data →
  data ≠ JNull →
  ∃ l', turns l (Submit :: in_flight (length (tasks l)) res before after) = Some l'
    ∧ tasks l' = (tasks l ++ [Finished (Fulfilled ())])%list
    ∧ requests (log (now l')) =
        (requests (log (now l)) ++ [(register_url, register_init (ui (now l)))])%list
    ∧ shown (ui (now l')) = shown (typed_into (ui (now l)) (before ++ after))
    ∧ error (ui (now l')) =
        (if ok res then empty_string else property data "error")
    ∧ session (now l') =
        (if ok res then Some (property data "user", property data "access_token")
         else session (now l))
    ∧ route (now l') = (if ok res then Some "/dashboard" else route (now l)).
Proof.
  intros Hb Ha Hbody Hnull. unfold in_flight.
  cbn [turns]. rewrite turn_Submit, turns_app.
  set (l1 := {| now := requested (ui (now l)) (now l);
                tasks := (tasks l ++ [OnFetch on_response])%list |}).
  destruct (turns_typing l1 before Hb) as (l2 & T2 & K2 & U2 & S2 & R2 & Q2).
  rewrite T2. cbn [mbind option_bind turns].
  assert (L2 : tasks l2 !! length (tasks l) = Some (OnFetch on_response)).
  { rewrite K2. apply list_lookup_middle. reflexivity. }
  rewrite (turn_ResponseSettles l2 _ res L2), turns_app.
  set (l3 := {| now := record (BodyRead res) (now l2);
                tasks := <[length (tasks l) := OnJson res (on_body res)]> (tasks l2) |}).
  destruct (turns_typing l3 after Ha) as (l4 & T4 & K4 & U4 & S4 & R4 & Q4).
  rewrite T4. cbn [mbind option_bind turns].
  assert (I : (length (tasks l) < length (tasks l2))%nat).
  { rewrite K2. cbn [l1 tasks]. rewrite length_app. cbn. lia. }
  assert (L4 : tasks l4 !! length (tasks l) = Some (OnJson res (on_body res))).
  { rewrite K4. cbn [l3 tasks]. apply list_lookup_insert_eq, I. }
  rewrite (turn_BodySettles l4 _ res data L4 Hbody Hnull).
  eexists. split; [reflexivity|]. cbn [now tasks].
  split.
  { rewrite K4. cbn [l3 tasks]. rewrite list_insert_insert_eq, K2. cbn [l1 tasks].
    replace (length (tasks l)) with (length (tasks l) + 0)%nat at 1 by lia.
    rewrite insert_app_r. reflexivity. }
  autorewrite with world. rewrite Q4, S4, R4. cbn [l3 now].
  autorewrite with world. rewrite Q2, S2, R2. cbn [l1 now].
  autorewrite with world.
  split; [reflexivity|].
  split.
  { destruct (fields_completed res data (now l4)) as (U & E & P).
    apply shown_fields; rewrite ?U, ?E, ?P, U4; cbn [l3 now]; rewrite ui_record, U2;
      cbn [l1 now]; rewrite ui_requested, typed_into_app, !typed_into_set_error;
      reflexivity. }
  rewrite U4, error_typed_into. cbn [l3 now]. rewrite ui_record, U2, error_typed_into.
  cbn [l1 now]. rewrite ui_requested. repeat split.
Qed.

Lemma edits_in_flight_are_kept_witness :
  ∃ l', turns {| now := typed_world; tasks := [] |}
          [Submit; TypeEmail "ada@example.com";
           ResponseSettles 0 (Fulfilled conflict); TypePassword "secret2";
           BodySettles 0] = Some l'
    ∧ requests (log (now l')) = [(register_url, register_init typed)]
    ∧ shown (ui (now l')) = [Some "ada"; Some "ada@example.com"; Some "secret2"]
    ∧ error (ui (now l')) = Val (JStr "Email already exists").
Proof.
  destruct (edits_in_flight_are_kept {| now := typed_world; tasks := [] |}
              conflict _ [TypeEmail "ada@example.com"] [TypePassword "secret2"]
              eq_refl eq_refl eq_refl ltac:(discriminate))
    as (l' & T & _ & Q & S & E & _).
  exists l'. split; [exact T|]. split; [exact Q|]. split; [exact S | exact E].
Defined.

(** ** The tree and its handlers *)

(** Each input is controlled by its own cell: whichever input of the
    rendered page fires its [onChange] with a value, the next render shows
    that value in this input and leaves the other inputs as they were; the
    handler finishes within the turn, issues no request and touches neither
    the error state, the session nor the route. *)
Theorem typing_reaches_its_own_input
    (w : world) (k : nat) (attrs : list attribute) (h : string → async ())
    (v : string) :
  tagged "input" (Register (ui w)) !! k = Some attrs →
  change_handler attrs = Some h →
  let r := advance (h v) w in
  r.2 = Finished (Fulfilled ())
  ∧ shown (ui r.1) = <[k := Some v]> (shown (ui w))
  ∧ error (ui r.1) = error (ui w)
  ∧ session r.1 = session w
  ∧ route r.1 = route w
  ∧ requests (since w r.1) = [].
Proof.
  intros Hk Hh. cbv zeta.
  assert (S : ∀ c, since w (perform c w) = [Called c]).
  { intros c. apply since_app. destruct c; reflexivity. }
  destruct k as [|[|[|k]]]; cbn in Hk; try discriminate Hk;
    injection Hk as <-; cbn in Hh; injection Hh as <-;
    unfold onChange_username, onChange_email, onChange_password, do;
    cbn [advance fst snd]; rewrite S; repeat split.
Qed.

Lemma typing_reaches_its_own_input_witness :
  shown (ui (advance (onChange_email "ada@example.com") typed_world).1)
  = [Some "ada"; Some "ada@example.com"; Some "secret1"].
Proof.
  pose proof (typing_reaches_its_own_input typed_world 1 _ onChange_email
                "ada@example.com" eq_refl eq_refl) as H.
  cbv zeta in H. exact (proj1 (proj2 H)).
Defined.

(** What the inputs show is what is sent: the form of the page rendered
    from the current state has one [onSubmit] handler, and whatever the
    network answers, running it issues one request whose body reads back as
    the three values the three inputs show, in the order username, email,
    password. *)
Theorem what_the_inputs_show_is_sent
    (net : network) (w : world) (attrs : list attribute) (h : async ()) :
  tagged "form" (Register (ui w)) = [attrs] →
  submit_handler attrs = Some h →
  ∃ (init : RequestInit) (u e p : string),
    requests (since w (run net h w).1) = [(register_url, init)]
    ∧ read_body (body init) = Some (u, e, p)
    ∧ shown (ui w) = [Some u; Some e; Some p].
Proof.
  intros Hf Hh. cbn in Hf. injection Hf as <-. cbn in Hh. injection Hh as <-.
  exists (register_init (ui w)), (username (ui w)), (email (ui w)), (password (ui w)).
  split; [apply requests_since|]. split; [apply read_body_stringify | reflexivity].
Qed.

Lemma what_the_inputs_show_is_sent_witness :
  ∃ init : RequestInit,
    requests (since typed_world (run offline (handleSubmit typed) typed_world).1)
    = [(register_url, init)]
    ∧ read_body (body init) = Some ("ada", "ada@example.org", "secret1").
Proof.
  destruct (what_the_inputs_show_is_sent offline typed_world _ (handleSubmit typed)
              eq_refl eq_refl) as (init & u & e & p & Q & B & S).
  exists init. split; [exact Q|].
  injection S as <- <- <-. exact B.
Defined.
